(** * prefect.storage.base: the [Storage] base contract

    A shallow embedding of [src/prefect/storage/base.py].  A Python method is
    a computation in a state-and-exception monad; the state it runs in is the
    attribute dictionary of [self] together with the ambient world (the
    process-wide configuration, the external state the collaborators act on,
    and a ghost log of the calls made to the compatibility checker). *)

From stdpp Require Import base option list gmap strings.

Local Open Scope string_scope.

(** ** Exceptions and outcomes *)

(** The exceptions the module can surface.  [TypeError] is the one
    [ABCMeta] raises when an abstract class is called: it carries the class
    name and the names of the methods left abstract.  [OtherError] stands
    for whatever a collaborator raises. *)
Inductive exn : Type :=
| NotImplementedError
| TypeError (cls : string) (missing : list string)
| OtherError (kind msg : string).

Inductive outcome (A : Type) : Type :=
| Return (a : A)
| Raise (e : exn).
Arguments Return {A} a.
Arguments Raise {A} e.

(** ** The monad of method bodies

    A raised exception keeps the state reached so far: Python does not roll
    back assignments when a call fails. *)
Definition M (S A : Type) : Type := S → outcome A * S.

Definition ret {S A} (a : A) : M S A := λ s, (Return a, s).

Definition raise {S A} (e : exn) : M S A := λ s, (Raise e, s).

Definition bind {S A B} (m : M S A) (k : A → M S B) : M S B :=
  λ s, match m s with
       | (Return a, s') => k a s'
       | (Raise e, s') => (Raise e, s')
       end.

Definition get {S} : M S S := λ s, (Return s, s).

Definition run {S A} (m : M S A) (s : S) : outcome A * S := m s.

Notation "x ←ₘ m ; k" := (bind m (λ x, k))
  (at level 20, m at level 100, k at level 200, right associativity,
   format "x  ←ₘ  m ;  '/' k").

(** ** Collaborators and data *)

(** [prefect.config], as far as this module reads it: the one boolean at
    [config.flows.defaults.storage.add_default_labels]. *)
Record Config : Type := {
  flows_defaults_storage_add_default_labels : bool
}.

(** What a serialization schema emits for one attribute. *)
Inductive jvalue : Type :=
| JNull
| JBool (b : bool)
| JStr (s : string)
| JStrs (l : list string).

(** [list(a_set)] enumerates a Python set in an order the language does not
    fix.  Every enumeration lists each member once and nothing else; the
    development is parametric in which one it is. *)
Class SetIteration : Type := {
  set_to_list : gset string → list string;
  set_to_list_NoDup : ∀ X, NoDup (set_to_list X);
  set_to_list_elem : ∀ X x, x ∈ set_to_list X ↔ x ∈ X
}.

(** The order stdpp lists a finite set in is one such enumeration. *)
#[export] Instance elements_iteration : SetIteration := {|
  set_to_list := elements;
  set_to_list_NoDup := NoDup_elements;
  set_to_list_elem := λ X x, elem_of_elements X x
|}.

(** Python's [x or []] on an optional list: [None] and the empty list are
    falsy, so both give the fresh empty list; a non-empty list is kept. *)
Definition or_empty {A} (x : option (list A)) : list A :=
  match x with
  | None => []
  | Some [] => []
  | Some (a :: l) => a :: l
  end.

(** [d.values()] of a dictionary kept as an association list in insertion
    order. *)
Definition dict_values {K V} (d : list (K * V)) : list V := map snd d.

Section Storage.

(** Opaque collaborators: the flow entity, the result object, the runner
    [get_env_runner] hands out, the argument of [__contains__], and the
    external state the compatibility checker acts on. *)
Context {Flow Result Runner Any Ext : Type}.

(** [prefect.storage._healthcheck.result_check]: given the flows it is
    handed it either returns or raises, possibly acting on the external
    state.  It holds no reference to the storage object itself. *)
Variable result_check : list Flow → Ext → outcome unit * Ext.

Context {iteration : SetIteration}.

(** The ambient world of a call. [checked] is a ghost log: one entry per
    call of [result_check], holding the flows it was given. *)
Record World : Type := {
  config : Config;
  checked : list (list Flow);
  ext : Ext
}.

(** The attributes of an instance.  The five attributes [__init__]
    assigns always exist; [_flows] is the registry some subclasses keep
    (a dict from flow name to flow), [None] when the instance has no such
    attribute. *)
Record Attrs : Type := {
  result : option Result;
  secrets : list string;
  stored_as_script : bool;
  _labels : list string;
  add_default_labels : bool;
  _flows : option (list (string * Flow))
}.

(** A method runs on [self] and the world. *)
Definition St : Type := Attrs * World.

Definition get_self : M St Attrs := λ s, (Return s.1, s).

(** The keyword arguments of the constructor; [None] is Python's [None],
    which is also what an omitted argument defaults to. *)
Record Kwargs : Type := {
  kw_result : option Result;
  kw_secrets : option (list string);
  kw_labels : option (list string);
  kw_add_default_labels : option bool;
  kw_stored_as_script : bool
}.

(** [Storage()] with every argument left at its default. *)
Definition no_kwargs : Kwargs := {|
  kw_result := None;
  kw_secrets := None;
  kw_labels := None;
  kw_add_default_labels := None;
  kw_stored_as_script := false
|}.

(** A class deriving from [Storage]: its [__name__] and, for each member a
    subclass may define, its own definition when it has one.  [None] for
    [own_add_flow], [own_contains] or [own_build] leaves the method
    abstract; [None] elsewhere inherits the body of the base class. *)
Record StorageClass : Type := {
  __name__ : string;
  own_init : option (Kwargs → M World Attrs);
  own_add_flow : option (Flow → M St string);
  own_contains : option (Any → M St bool);
  own_build : option (M St Attrs);
  own_default_labels : option (list string);
  own_name : option string;
  own_get_env_runner : option (string → M St Runner);
  own_get_flow : option (string → M St Flow)
}.

(** *** Construction *)

Definition __init__ (kw : Kwargs) : M World Attrs :=
  add ←ₘ match kw_add_default_labels kw with
         | None =>
             w ←ₘ get;
             ret (flows_defaults_storage_add_default_labels (config w))
         | Some b => ret b
         end;
  ret {| result := kw_result kw;
         secrets := or_empty (kw_secrets kw);
         stored_as_script := kw_stored_as_script kw;
         _labels := or_empty (kw_labels kw);
         add_default_labels := add;
         _flows := None |}.

(** [cls.__abstractmethods__], as [ABCMeta] computes it for a class whose
    base is [Storage]: the abstract methods of the base that the class
    does not define. *)
Definition __abstractmethods__ (cls : StorageClass) : list string :=
  (if own_add_flow cls is Some _ then [] else ["add_flow"])
  ++ (if own_contains cls is Some _ then [] else ["__contains__"])
  ++ (if own_build cls is Some _ then [] else ["build"]).

(** Calling the class.  [object.__new__] refuses a class with abstract
    methods before any [__init__] runs. *)
Definition instantiate (cls : StorageClass) (kw : Kwargs) : M World Attrs :=
  match __abstractmethods__ cls with
  | [] => default __init__ (own_init cls) kw
  | missing => raise (TypeError (__name__ cls) missing)
  end.

(** *** Labels *)

Definition default_labels : M St (list string) := ret [].

Definition default_labels_of (cls : StorageClass) : M St (list string) :=
  match own_default_labels cls with
  | Some d => ret d
  | None => default_labels
  end.

Definition labels (cls : StorageClass) : M St (list string) :=
  self ←ₘ get_self;
  if negb (add_default_labels self) then ret (_labels self)
  else
    let all_labels : gset string := list_to_set (_labels self) in
    d ←ₘ default_labels_of cls;
    let all_labels := all_labels ∪ list_to_set d in
    ret (set_to_list all_labels).

(** *** Identity and the optional operations *)

Definition __repr__ (cls : StorageClass) : M St string :=
  ret ("<Storage: " ++ __name__ cls ++ ">").

Definition get_env_runner (flow_location : string) : M St Runner :=
  raise NotImplementedError.

Definition get_flow (flow_location : string) : M St Flow :=
  raise NotImplementedError.

Definition name (cls : StorageClass) : M St string := ret (__name__ cls).

Definition get_env_runner_of (cls : StorageClass) : string → M St Runner :=
  default get_env_runner (own_get_env_runner cls).

Definition get_flow_of (cls : StorageClass) : string → M St Flow :=
  default get_flow (own_get_flow cls).

Definition name_of (cls : StorageClass) : M St string :=
  match own_name cls with
  | Some n => ret n
  | None => name cls
  end.

(** *** Serialization *)

(** The field of the serialized mapping that holds the discriminator. *)
Variable type_field : string.

(** The schemas registered per backend type identifier: each turns the
    attributes of an instance into a mapping. *)
Variable registry : gmap string (Attrs → gmap string jvalue).

(** Modelled from the spec: [prefect.serialization.storage.StorageSchema]
    is not among the sources.  The spec describes a registry that maps the
    concrete backend type to a schema object with a [dump(instance)]
    operation, whose mapping is tagged with a discriminator identifying
    the concrete type.  The spec promises success for a well-formed
    instance only and says nothing of a type without a schema; that case
    is made a failure here, so that success is not built in. *)
Definition StorageSchema_dump (cls : StorageClass) : M St (gmap string jvalue) :=
  self ←ₘ get_self;
  match registry !! __name__ cls with
  | Some schema => ret (<[type_field := JStr (__name__ cls)]> (schema self))
  | None => raise (OtherError "UnsupportedType" (__name__ cls))
  end.

Definition serialize (cls : StorageClass) : M St (gmap string jvalue) :=
  StorageSchema_dump cls.

(** *** Health checks *)

(** [hasattr(self, "_flows")]. *)
Definition hasattr_flows : M St bool :=
  self ←ₘ get_self; ret (bool_decide (is_Some (_flows self))).

(** [self._flows]: reading a missing attribute raises. *)
Definition getattr_flows : M St (list (string * Flow)) :=
  self ←ₘ get_self;
  match _flows self with
  | Some d => ret d
  | None => raise (OtherError "AttributeError" "_flows")
  end.

(** The call [_healthcheck.result_check(flows)]: the checker runs on the
    external state, its outcome is the outcome of the call, and the log
    records the call. *)
Definition _healthcheck_result_check (flows : list Flow) : M St unit :=
  λ s, let '(r, e) := result_check flows (ext s.2) in
       (r, (s.1, {| config := config s.2;
                    checked := checked s.2 ++ [flows];
                    ext := e |})).

Definition run_basic_healthchecks : M St unit :=
  has ←ₘ hasattr_flows;
  if negb has then ret tt
  else
    flows ←ₘ getattr_flows;
    _healthcheck_result_check (dict_values flows).

End Storage.

(** ** A concrete backend

    A small instance of the parameters, used to run the definitions: flows
    carry a name and whether their result configuration is acceptable, the
    checker reports the first flow that is not, and the external state is
    what the checker printed. *)

Record demo_flow : Type := {
  flow_name : string;
  flow_result_ok : bool
}.

Definition demo_result_check (flows : list demo_flow) (out : list string)
  : outcome unit * list string :=
  match List.find (λ f, negb (flow_result_ok f)) flows with
  | Some f => (Raise (OtherError "ValueError" (flow_name f)), out)
  | None => (Return tt, (out ++ ["Result check: OK"])%list)
  end.

Definition demo_class : Type :=
  @StorageClass demo_flow unit unit string (list string).
Definition demo_attrs : Type := @Attrs demo_flow unit.
Definition demo_world_t : Type := @World demo_flow (list string).

(** A backend that defines the three required operations and a fixed set of
    default labels, and inherits everything else. *)
Definition DemoStorage : demo_class := {|
  __name__ := "DemoStorage";
  own_init := None;
  own_add_flow := Some (λ f, ret (flow_name f));
  own_contains := Some (λ _, ret false);
  own_build := Some get_self;
  own_default_labels := Some ["b"; "c"];
  own_name := None;
  own_get_env_runner := None;
  own_get_flow := None
|}.

(** A class that defines [build] and [__contains__] and omits [add_flow]. *)
Definition BuildAndContainsOnly : demo_class := {|
  __name__ := "BuildAndContainsOnly";
  own_init := None;
  own_add_flow := None;
  own_contains := Some (λ _, ret false);
  own_build := Some get_self;
  own_default_labels := None;
  own_name := None;
  own_get_env_runner := None;
  own_get_flow := None
|}.

(** A concrete backend whose own class is called [Storage], as a module
    elsewhere may name its subclass; it keeps the base [default_labels] and
    [name]. *)
Definition HomonymStorage : demo_class := {|
  __name__ := "Storage";
  own_init := None;
  own_add_flow := Some (λ f, ret (flow_name f));
  own_contains := Some (λ _, ret false);
  own_build := Some get_self;
  own_default_labels := None;
  own_name := None;
  own_get_env_runner := None;
  own_get_flow := None
|}.

Definition demo_world (add_default : bool) : demo_world_t := {|
  config := {| flows_defaults_storage_add_default_labels := add_default |};
  checked := [];
  ext := []
|}.

Definition demo_kwargs (ls : option (list string)) (add_default : option bool)
  : @Kwargs unit := {|
  kw_result := None;
  kw_secrets := None;
  kw_labels := ls;
  kw_add_default_labels := add_default;
  kw_stored_as_script := false
|}.

Definition demo_self (ls : list string) (add_default : bool)
    (flows : option (list (string * demo_flow))) : demo_attrs := {|
  result := None;
  secrets := [];
  stored_as_script := false;
  _labels := ls;
  add_default_labels := add_default;
  _flows := flows
|}.

Definition good_flow : demo_flow :=
  {| flow_name := "etl"; flow_result_ok := true |}.
Definition bad_flow : demo_flow :=
  {| flow_name := "report"; flow_result_ok := false |}.

(** A schema registry that knows [DemoStorage] only. *)
Definition demo_registry : gmap string (demo_attrs → gmap string jvalue) :=
  {[ "DemoStorage" := λ self, {[ "secrets" := JStrs (secrets self) ]} ]}.

(** * Properties *)

Create HintDb storage discriminated.

#[global] Hint Unfold run bind ret raise get : storage.

Ltac step_method := autounfold with storage in *; simpl in *.

Section Properties.

Context {Flow Result Runner Any Ext : Type}.
Variable result_check : list Flow → Ext → outcome unit * Ext.
Context {iteration : SetIteration}.

Local Abbreviation Attrs := (@Attrs Flow Result).
Local Abbreviation World := (@World Flow Ext).
Local Abbreviation StorageClass := (@StorageClass Flow Result Runner Any Ext).
Local Abbreviation Kwargs := (@Kwargs Result).

Variable type_field : string.
Variable registry : gmap string (Attrs → gmap string jvalue).

Implicit Types (cls : StorageClass) (self : Attrs) (w : World) (kw : Kwargs).

(** ** The monad *)

(** An exception skips the rest of the caller's code. *)
Lemma bind_raise {S A B} (m : M S A) (k : A → M S B) s e s' :
  m s = (Raise e, s') → bind m k s = (Raise e, s').
Proof. intros Hm. unfold bind. by rewrite Hm. Qed.

(** ** Labels *)

(** Reading the default labels of a class yields a list and changes
    nothing. *)
Lemma default_labels_of_pure cls :
  ∃ D, ∀ self w, run (default_labels_of cls) (self, w) = (Return D, (self, w)).
Proof.
  unfold default_labels_of, default_labels.
  destruct (own_default_labels cls) as [d|]; eauto.
Qed.

(** With merging off the stored list is returned as it is. *)
Lemma labels_plain cls self w :
  add_default_labels self = false →
  run (labels cls) (self, w) = (Return (_labels self), (self, w)).
Proof. intros Hadd. unfold labels. step_method. by rewrite Hadd. Qed.

(** With merging on the result enumerates the union of the two sets. *)
Lemma labels_merged cls self w D :
  add_default_labels self = true →
  run (default_labels_of cls) (self, w) = (Return D, (self, w)) →
  run (labels cls) (self, w)
  = (Return (set_to_list (list_to_set (_labels self) ∪ list_to_set D)),
     (self, w)).
Proof.
  intros Hadd HD. unfold labels. step_method.
  rewrite Hadd. simpl. by rewrite HD.
Qed.

Lemma set_to_list_union_elem (L D : list string) x :
  x ∈ set_to_list (list_to_set L ∪ list_to_set D) ↔ x ∈ L ∨ x ∈ D.
Proof.
  rewrite set_to_list_elem, elem_of_union, !elem_of_list_to_set. done.
Qed.

Lemma set_to_list_union_set (L D : list string) :
  (list_to_set (set_to_list (list_to_set L ∪ list_to_set D)) : gset string)
  = list_to_set L ∪ list_to_set D.
Proof.
  apply set_eq. intros x.
  rewrite elem_of_list_to_set, set_to_list_elem. done.
Qed.

(** [labels] always returns, and never touches [self] or the world. *)
Lemma labels_returns cls self w :
  ∃ l, run (labels cls) (self, w) = (Return l, (self, w)).
Proof.
  destruct (add_default_labels self) eqn:Hadd.
  - destruct (default_labels_of_pure cls) as [D HD].
    eexists. by apply labels_merged.
  - eexists. by apply labels_plain.
Qed.

(** ** Construction *)

(** The base constructor always returns, leaves the world as it found it,
    and fills the attributes as follows. *)
Lemma init_returns kw w :
  run (__init__ kw) w
  = (Return {| result := kw_result kw;
               secrets := or_empty (kw_secrets kw);
               stored_as_script := kw_stored_as_script kw;
               _labels := or_empty (kw_labels kw);
               add_default_labels :=
                 match kw_add_default_labels kw with
                 | Some b => b
                 | None => flows_defaults_storage_add_default_labels (config w)
                 end;
               _flows := None |}, w).
Proof.
  unfold __init__. step_method.
  by destruct (kw_add_default_labels kw).
Qed.

(** A class that defines the three required operations and keeps the base
    constructor is built by [__init__]. *)
Lemma instantiate_concrete cls kw w :
  __abstractmethods__ cls = [] → own_init cls = None →
  run (instantiate cls kw) w = run (__init__ kw) w.
Proof.
  intros Habs Hinit. unfold run, instantiate. by rewrite Habs, Hinit.
Qed.

(** What [__abstractmethods__] holds: the required operations the class
    leaves undefined. *)
Lemma abstractmethods_spec cls :
  (own_add_flow cls = None ↔ "add_flow" ∈ __abstractmethods__ cls)
  ∧ (own_contains cls = None ↔ "__contains__" ∈ __abstractmethods__ cls)
  ∧ (own_build cls = None ↔ "build" ∈ __abstractmethods__ cls).
Proof.
  unfold __abstractmethods__.
  destruct (own_add_flow cls), (own_contains cls), (own_build cls); simpl;
    rewrite ?elem_of_cons, ?elem_of_nil;
    repeat split; intros; try done;
    repeat match goal with H : _ ∨ _ |- _ => destruct H end;
    try done; auto.
Qed.

(** ** Health checks *)

Lemma healthchecks_without_registry self w :
  _flows self = None →
  run (run_basic_healthchecks result_check) (self, w) = (Return tt, (self, w)).
Proof.
  intros Hnone. unfold run_basic_healthchecks, hasattr_flows.
  step_method. by rewrite Hnone.
Qed.

Lemma healthchecks_with_registry self w flows :
  _flows self = Some flows →
  run (run_basic_healthchecks result_check) (self, w)
  = ((result_check (dict_values flows) (ext w)).1,
     (self, {| config := config w;
               checked := checked w ++ [dict_values flows];
               ext := (result_check (dict_values flows) (ext w)).2 |})).
Proof.
  intros Hsome.
  unfold run_basic_healthchecks, hasattr_flows, getattr_flows,
    _healthcheck_result_check, get_self.
  step_method. repeat (rewrite Hsome; simpl).
  by destruct (result_check (dict_values flows) (ext w)).
Qed.

Lemma or_empty_Some {A} (l : list A) : or_empty (Some l) = l.
Proof. by destruct l. Qed.

(** ** The claims *)

(** C1. Label resolution.  For a backend whose explicit labels are [L]
    and whose default labels are [D]: with [add_default_labels] true,
    [labels] returns a duplicate-free list whose members are exactly those
    of [L] and of [D], in no promised order; with [add_default_labels]
    false it returns [L] itself.  In particular a backend built with
    [labels=["a","b"]], [add_default_labels=True] and default labels
    [["b","c"]] has the label set {a, b, c}. *)
Theorem labels_resolution cls self w (L D : list string) :
  _labels self = L →
  run (default_labels_of cls) (self, w) = (Return D, (self, w)) →
  (add_default_labels self = true →
     ∃ l, run (labels cls) (self, w) = (Return l, (self, w))
          ∧ NoDup l
          ∧ (list_to_set l : gset string) = list_to_set L ∪ list_to_set D
          ∧ ∀ x, x ∈ l ↔ x ∈ L ∨ x ∈ D)
  ∧ (add_default_labels self = false →
       run (labels cls) (self, w) = (Return L, (self, w)))
  ∧ (∀ kw, __abstractmethods__ cls = [] → own_init cls = None →
       own_default_labels cls = Some ["b"; "c"] →
       kw_labels kw = Some ["a"; "b"] →
       kw_add_default_labels kw = Some true →
       ∃ built l,
         run (instantiate cls kw) w = (Return built, w)
         ∧ run (labels cls) (built, w) = (Return l, (built, w))
         ∧ (list_to_set l : gset string) = {["a"; "b"; "c"]}).
Proof.
  intros HL HD. split; [|split].
  - intros Hadd. eexists. split; [by apply labels_merged|]. subst L.
    split; [apply set_to_list_NoDup|].
    split; [apply set_to_list_union_set|].
    intros x. apply set_to_list_union_elem.
  - intros Hadd. subst L. by apply labels_plain.
  - intros kw Habs Hinit Hdef Hkl Hka.
    rewrite (instantiate_concrete _ _ _ Habs Hinit), init_returns.
    rewrite Hkl, Hka. simpl. do 2 eexists. split; [done|].
    split.
    + apply labels_merged; [done|].
      unfold default_labels_of. rewrite Hdef. done.
    + rewrite set_to_list_union_set. simpl. set_solver.
Qed.

(** C5, as amended.  [labels] always returns a list, and that list is free
    of duplicates exactly when [add_default_labels] is true or the explicit
    label list is itself free of duplicates: with [add_default_labels]
    false the explicit list is handed back as stored, duplicates
    included. *)
Theorem labels_dedup_when_merged cls self w :
  ∃ l, run (labels cls) (self, w) = (Return l, (self, w))
       ∧ (NoDup l ↔ add_default_labels self = true ∨ NoDup (_labels self))
       ∧ (add_default_labels self = false → l = _labels self).
Proof.
  destruct (add_default_labels self) eqn:Hadd.
  - destruct (default_labels_of_pure cls) as [D HD].
    eexists. split; [by apply labels_merged|].
    split; [|discriminate].
    split; [by left|]. intros _. apply set_to_list_NoDup.
  - eexists. split; [by apply labels_plain|].
    split; [|done].
    split; [by right|]. by intros [?|?].
Qed.

(** C3. The configuration is read by the constructor only, and only when
    [add_default_labels] is not given: an explicit value, [False]
    included, is stored whatever the configuration says, and an absent one
    is resolved from the configuration of the moment.  Afterwards [labels]
    returns the same list under any two ambient worlds, leaves [self] and
    the world untouched, and is determined by [_labels],
    [add_default_labels] and the default labels alone. *)
Theorem config_read_at_construction_only :
  (∀ kw b w1 w2, kw_add_default_labels kw = Some b →
     ∃ built, run (__init__ kw) w1 = (Return built, w1)
              ∧ run (__init__ kw) w2 = (Return built, w2)
              ∧ add_default_labels built = b)
  ∧ (∀ kw w, kw_add_default_labels kw = None →
       ∃ built, run (__init__ kw) w = (Return built, w)
                ∧ add_default_labels built
                  = flows_defaults_storage_add_default_labels (config w))
  ∧ (∀ cls self w1 w2,
       ∃ l, run (labels cls) (self, w1) = (Return l, (self, w1))
            ∧ run (labels cls) (self, w2) = (Return l, (self, w2)))
  ∧ (∀ cls cls' self self' w w',
       _labels self = _labels self' →
       add_default_labels self = add_default_labels self' →
       (run (default_labels_of cls) (self, w)).1
       = (run (default_labels_of cls') (self', w')).1 →
       (run (labels cls) (self, w)).1 = (run (labels cls') (self', w')).1).
Proof.
  split; [|split; [|split]].
  - intros kw b w1 w2 Hb. eexists. rewrite !init_returns, Hb. done.
  - intros kw w Hnone. eexists. rewrite init_returns, Hnone. done.
  - intros cls self w1 w2. destruct (add_default_labels self) eqn:Hadd.
    + destruct (default_labels_of_pure cls) as [D HD].
      eexists. split; by apply labels_merged.
    + eexists. split; by apply labels_plain.
  - intros cls cls' self self' w w' Hl Ha Hd.
    destruct (default_labels_of_pure cls) as [D HD].
    destruct (default_labels_of_pure cls') as [D' HD'].
    rewrite HD, HD' in Hd. simpl in Hd. injection Hd as ->.
    destruct (add_default_labels self) eqn:Hadd; symmetry in Ha.
    + rewrite (labels_merged _ _ _ _ Hadd (HD _ _)),
        (labels_merged _ _ _ _ Ha (HD' _ _)).
      simpl. by rewrite Hl.
    + rewrite (labels_plain _ _ _ Hadd), (labels_plain _ _ _ Ha).
      simpl. by rewrite Hl.
Qed.

(** C6. Absent arguments are normalised by the constructor: built with
    [secrets] absent the instance has [secrets == []], built with [labels]
    absent it has an empty explicit label list, and a list that is given
    is stored as it is.  The stored attributes are lists in every case. *)
Theorem init_normalizes_absent cls kw w :
  __abstractmethods__ cls = [] → own_init cls = None →
  ∃ built, run (instantiate cls kw) w = (Return built, w)
           ∧ (kw_secrets kw = None → secrets built = [])
           ∧ (kw_labels kw = None → _labels built = [])
           ∧ (∀ l, kw_secrets kw = Some l → secrets built = l)
           ∧ (∀ l, kw_labels kw = Some l → _labels built = l).
Proof.
  intros Habs Hinit.
  rewrite (instantiate_concrete _ _ _ Habs Hinit), init_returns.
  eexists. split; [done|]. simpl.
  repeat split; intros; simplify_eq/=;
    match goal with H : _ = _ |- _ => rewrite H end;
    auto using or_empty_Some.
Qed.

(** C4. On a backend whose class defines neither, [get_env_runner] and
    [get_flow] raise [NotImplementedError] for every location, at once and
    without touching [self] or the world; nothing the caller wrote after
    the call runs, so the failure always reaches the caller. *)
Theorem optional_operations_unsupported cls (flow_location : string) self w :
  (own_get_env_runner cls = None →
     run (get_env_runner_of cls flow_location) (self, w)
     = (Raise NotImplementedError, (self, w))
     ∧ ∀ B (rest : Runner → M St B),
         run (bind (get_env_runner_of cls flow_location) rest) (self, w)
         = (Raise NotImplementedError, (self, w)))
  ∧ (own_get_flow cls = None →
       run (get_flow_of cls flow_location) (self, w)
       = (Raise NotImplementedError, (self, w))
       ∧ ∀ B (rest : Flow → M St B),
           run (bind (get_flow_of cls flow_location) rest) (self, w)
           = (Raise NotImplementedError, (self, w))).
Proof.
  split; intros Hown.
  - unfold get_env_runner_of. rewrite Hown. simpl.
    split; [done|]. intros B rest. by apply bind_raise.
  - unfold get_flow_of. rewrite Hown. simpl.
    split; [done|]. intros B rest. by apply bind_raise.
Qed.

(** C8, as amended.  For a class that does not define [name], the [name]
    attribute is the [__name__] of that class; it is the identifier of the
    base class only when the class itself bears that identifier, so for
    every class named otherwise it is never the identifier of the base. *)
Theorem name_is_concrete_type cls self w :
  own_name cls = None →
  run (name_of cls) (self, w) = (Return (__name__ cls), (self, w))
  ∧ (__name__ cls ≠ "Storage" →
     (run (name_of cls) (self, w)).1 ≠ Return "Storage").
Proof.
  intros Hown. unfold name_of, name. rewrite Hown.
  split; [done|]. step_method. congruence.
Qed.

(** C9. A class that leaves [add_flow], [__contains__] or [build]
    undefined cannot be instantiated: calling it raises [TypeError] naming
    the missing methods before any constructor runs, whatever the
    arguments.  A class that defines [build] and [__contains__] only is
    refused for its missing [add_flow]. *)
Theorem abstract_class_not_instantiable cls kw w :
  own_add_flow cls = None ∨ own_contains cls = None ∨ own_build cls = None →
  ∃ missing,
    run (instantiate cls kw) w = (Raise (TypeError (__name__ cls) missing), w)
    ∧ missing ≠ []
    ∧ (own_add_flow cls = None ↔ "add_flow" ∈ missing)
    ∧ (own_contains cls = None ↔ "__contains__" ∈ missing)
    ∧ (own_build cls = None ↔ "build" ∈ missing)
    ∧ (own_add_flow cls = None → is_Some (own_contains cls) →
       is_Some (own_build cls) → missing = ["add_flow"]).
Proof.
  intros Hmiss. exists (__abstractmethods__ cls).
  pose proof (abstractmethods_spec cls) as (Hadd & Hcont & Hbuild).
  split; [|split; [|repeat split; try tauto]].
  - unfold run, instantiate.
    destruct (__abstractmethods__ cls) eqn:Habs; [|done].
    rewrite elem_of_nil in Hadd, Hcont, Hbuild. tauto.
  - intros Habs. rewrite Habs, elem_of_nil in Hadd, Hcont, Hbuild. tauto.
  - intros Hnone [c Hc] [b Hb]. unfold __abstractmethods__.
    by rewrite Hnone, Hc, Hb.
Qed.

(** C7. For an instance whose concrete type has a schema, [serialize]
    returns a mapping, changes nothing, and the mapping holds the type
    identifier of the concrete class under the discriminator field. *)
Theorem serialize_tags_concrete_type cls self w :
  is_Some (registry !! __name__ cls) →
  ∃ m, run (serialize type_field registry cls) (self, w)
       = (Return m, (self, w))
       ∧ m !! type_field = Some (JStr (__name__ cls)).
Proof.
  intros [schema Hschema]. unfold serialize, StorageSchema_dump.
  step_method. rewrite Hschema. eexists. split; [done|].
  apply lookup_insert_eq.
Qed.

(** C2. Without a [_flows] attribute [run_basic_healthchecks] returns
    normally, calls nothing and changes nothing.  With one, it calls the
    checker exactly once, on all the flows the registry holds, and the
    outcome of the call is the outcome of the checker: a failure comes out
    as raised. *)
Theorem healthcheck_gate self w :
  (_flows self = None →
     run (run_basic_healthchecks result_check) (self, w)
     = (Return tt, (self, w)))
  ∧ (∀ flows r e,
       _flows self = Some flows →
       result_check (dict_values flows) (ext w) = (r, e) →
       run (run_basic_healthchecks result_check) (self, w)
       = (r, (self, {| config := config w;
                       checked := checked w ++ [dict_values flows];
                       ext := e |}))
       ∧ ∀ k f, (k, f) ∈ flows → f ∈ dict_values flows).
Proof.
  split.
  - apply healthchecks_without_registry.
  - intros flows r e Hsome Hcheck. split.
    + rewrite (healthchecks_with_registry _ _ _ Hsome), Hcheck. done.
    + intros k f Hin. unfold dict_values.
      apply list_elem_of_fmap. by exists (k, f).
Qed.

(** C10. [run_basic_healthchecks] leaves every attribute of [self] as it
    was, whether there is a registry or not and whether the checker
    returns or raises; the configuration is left alone as well. *)
Theorem healthcheck_frame self w :
  (run (run_basic_healthchecks result_check) (self, w)).2.1 = self
  ∧ config (run (run_basic_healthchecks result_check) (self, w)).2.2
    = config w.
Proof.
  destruct (_flows self) as [flows|] eqn:Hflows.
  - by rewrite (healthchecks_with_registry _ _ _ Hflows).
  - by rewrite (healthchecks_without_registry _ _ Hflows).
Qed.

End Properties.

(** * The claims on the concrete backend *)

Lemma labels_resolution_witness :
  (∃ l, run (labels DemoStorage) (demo_self ["a"; "b"] true None, demo_world false)
        = (Return l, (demo_self ["a"; "b"] true None, demo_world false))
        ∧ NoDup l
        ∧ (list_to_set l : gset string) = list_to_set ["a"; "b"] ∪ list_to_set ["b"; "c"]
        ∧ ∀ x, x ∈ l ↔ x ∈ ["a"; "b"] ∨ x ∈ ["b"; "c"])
  ∧ run (labels DemoStorage) (demo_self ["a"; "b"] false None, demo_world true)
    = (Return ["a"; "b"], (demo_self ["a"; "b"] false None, demo_world true))
  ∧ (∃ built l,
       run (instantiate DemoStorage (demo_kwargs (Some ["a"; "b"]) (Some true)))
         (demo_world false)
       = (Return built, demo_world false)
       ∧ run (labels DemoStorage) (built, demo_world false)
         = (Return l, (built, demo_world false))
       ∧ (list_to_set l : gset string) = {["a"; "b"; "c"]}).
Proof.
  split; [|split].
  - apply (labels_resolution DemoStorage (demo_self ["a"; "b"] true None)
             (demo_world false) ["a"; "b"] ["b"; "c"]); reflexivity.
  - apply (labels_resolution DemoStorage (demo_self ["a"; "b"] false None)
             (demo_world true) ["a"; "b"] ["b"; "c"]); reflexivity.
  - apply (labels_resolution DemoStorage (demo_self [] false None)
             (demo_world false) [] ["b"; "c"] eq_refl eq_refl); reflexivity.
Defined.

(** With merging off, a duplicated explicit label comes back twice. *)
Lemma labels_duplicates_counterexample :
  run (labels DemoStorage) (demo_self ["a"; "a"] false None, demo_world false)
  = (Return ["a"; "a"], (demo_self ["a"; "a"] false None, demo_world false))
  ∧ ¬ NoDup ["a"; "a"].
Proof.
  split; [reflexivity|].
  intros Hnodup. apply NoDup_cons in Hnodup as [Hnotin _].
  apply Hnotin. apply list_elem_of_here.
Qed.

Lemma healthcheck_gate_witness :
  run (run_basic_healthchecks demo_result_check)
    (demo_self [] true None, demo_world true)
  = (Return tt, (demo_self [] true None, demo_world true))
  ∧ run (run_basic_healthchecks demo_result_check)
      (demo_self [] true (Some [("etl", good_flow); ("report", bad_flow)]),
       demo_world true)
    = (Raise (OtherError "ValueError" "report"),
       (demo_self [] true (Some [("etl", good_flow); ("report", bad_flow)]),
        {| config := {| flows_defaults_storage_add_default_labels := true |};
           checked := [[good_flow; bad_flow]];
           ext := [] |}))
  ∧ run (run_basic_healthchecks demo_result_check)
      (demo_self [] true (Some [("etl", good_flow); ("etl2", good_flow)]),
       demo_world true)
    = (Return tt,
       (demo_self [] true (Some [("etl", good_flow); ("etl2", good_flow)]),
        {| config := {| flows_defaults_storage_add_default_labels := true |};
           checked := [[good_flow; good_flow]];
           ext := ["Result check: OK"] |})).
Proof.
  split; [|split].
  - apply (healthcheck_gate demo_result_check (demo_self [] true None)
             (demo_world true)). reflexivity.
  - exact (proj1 (proj2 (healthcheck_gate demo_result_check
             (demo_self [] true (Some [("etl", good_flow); ("report", bad_flow)]))
             (demo_world true)) _ _ _ eq_refl eq_refl)).
  - exact (proj1 (proj2 (healthcheck_gate demo_result_check
             (demo_self [] true (Some [("etl", good_flow); ("etl2", good_flow)]))
             (demo_world true)) _ _ _ eq_refl eq_refl)).
Defined.

Lemma config_read_at_construction_only_witness :
  (∃ built : demo_attrs,
     run (__init__ (demo_kwargs None (Some false))) (demo_world true)
     = (Return built, demo_world true)
     ∧ run (__init__ (demo_kwargs None (Some false))) (demo_world false)
       = (Return built, demo_world false)
     ∧ add_default_labels built = false)
  ∧ (∃ built : demo_attrs,
       run (__init__ (demo_kwargs None None)) (demo_world true)
       = (Return built, demo_world true)
       ∧ add_default_labels built
         = flows_defaults_storage_add_default_labels (config (demo_world true)))
  ∧ (run (labels DemoStorage) (demo_self ["a"] true None, demo_world true)).1
    = (run (labels DemoStorage)
         (demo_self ["a"] true (Some [("etl", good_flow)]), demo_world false)).1.
Proof.
  pose proof (@config_read_at_construction_only demo_flow unit unit string
                (list string) elements_iteration) as (Hgiven & Habsent & _ & Hfun).
  split; [|split].
  - apply Hgiven. reflexivity.
  - apply Habsent. reflexivity.
  - apply Hfun; reflexivity.
Defined.

Lemma optional_operations_unsupported_witness :
  run (get_env_runner_of DemoStorage "flows/etl.prefect")
    (demo_self [] true None, demo_world true)
  = (Raise NotImplementedError, (demo_self [] true None, demo_world true))
  ∧ run (get_flow_of DemoStorage "flows/etl.prefect")
      (demo_self [] true None, demo_world true)
    = (Raise NotImplementedError, (demo_self [] true None, demo_world true)).
Proof.
  split.
  - apply (optional_operations_unsupported DemoStorage "flows/etl.prefect"
             (demo_self [] true None) (demo_world true)). reflexivity.
  - apply (optional_operations_unsupported DemoStorage "flows/etl.prefect"
             (demo_self [] true None) (demo_world true)). reflexivity.
Defined.

Lemma init_normalizes_absent_witness :
  ∃ built,
    run (instantiate DemoStorage (demo_kwargs None (Some true))) (demo_world false)
    = (Return built, demo_world false)
    ∧ (secrets built = [])
    ∧ (_labels built = []).
Proof.
  destruct (init_normalizes_absent DemoStorage (demo_kwargs None (Some true))
              (demo_world false) eq_refl eq_refl)
    as (built & Hrun & Hsecrets & Hlabels & _).
  exists built. split; [exact Hrun|].
  split; [apply Hsecrets | apply Hlabels]; reflexivity.
Defined.

Lemma serialize_tags_concrete_type_witness :
  ∃ m, run (serialize "type" demo_registry DemoStorage)
         (demo_self [] true None, demo_world true)
       = (Return m, (demo_self [] true None, demo_world true))
       ∧ m !! "type" = Some (JStr "DemoStorage").
Proof.
  apply (serialize_tags_concrete_type "type" demo_registry DemoStorage
           (demo_self [] true None) (demo_world true)).
  unfold demo_registry. simpl. rewrite lookup_singleton_eq. by eexists.
Defined.

Lemma name_is_concrete_type_witness :
  run (name_of DemoStorage) (demo_self [] true None, demo_world true)
  = (Return "DemoStorage", (demo_self [] true None, demo_world true))
  ∧ (run (name_of DemoStorage) (demo_self [] true None, demo_world true)).1
    ≠ Return "Storage".
Proof.
  destruct (name_is_concrete_type DemoStorage (demo_self [] true None)
              (demo_world true) eq_refl) as [Hname Hbase].
  split; [exact Hname|]. apply Hbase. discriminate.
Defined.

(** A subclass that is itself called [Storage] can be instantiated, does
    not define [name], and has the identifier of the base class as its
    name. *)
Lemma name_homonym_counterexample :
  own_name HomonymStorage = None
  ∧ run (instantiate HomonymStorage no_kwargs) (demo_world true)
    = (Return (demo_self [] true None), demo_world true)
  ∧ run (name_of HomonymStorage) (demo_self [] true None, demo_world true)
    = (Return "Storage", (demo_self [] true None, demo_world true)).
Proof. repeat split. Qed.

Lemma labels_dedup_when_merged_witness :
  ∃ l, run (labels DemoStorage) (demo_self ["a"; "a"] false None, demo_world true)
       = (Return l, (demo_self ["a"; "a"] false None, demo_world true))
       ∧ l = ["a"; "a"].
Proof.
  destruct (labels_dedup_when_merged DemoStorage
              (demo_self ["a"; "a"] false None) (demo_world true))
    as (l & Hrun & _ & Hstored).
  exists l. split; [exact Hrun|]. apply Hstored. reflexivity.
Defined.

Lemma abstract_class_not_instantiable_witness :
  run (instantiate BuildAndContainsOnly no_kwargs) (demo_world true)
  = (Raise (TypeError "BuildAndContainsOnly" ["add_flow"]), demo_world true).
Proof.
  destruct (abstract_class_not_instantiable BuildAndContainsOnly
              no_kwargs (demo_world true) (or_introl eq_refl))
    as (missing & Hrun & _ & _ & _ & _ & Honly).
  rewrite <- (Honly eq_refl (mk_is_Some _ _ eq_refl) (mk_is_Some _ _ eq_refl)).
  exact Hrun.
Defined.

(** * Further properties of the module *)

Section MoreProperties.

Context {Flow Result Runner Any Ext : Type}.
Variable result_check : list Flow → Ext → outcome unit * Ext.
Context {iteration : SetIteration}.

Local Abbreviation Attrs := (@Attrs Flow Result).
Local Abbreviation World := (@World Flow Ext).
Local Abbreviation StorageClass := (@StorageClass Flow Result Runner Any Ext).
Local Abbreviation Kwargs := (@Kwargs Result).

Implicit Types (cls : StorageClass) (self : Attrs) (w : World) (kw : Kwargs).

(** ** Labels *)

Lemma remove_dups_length_le (l : list string) :
  (length (remove_dups l) ≤ length l)%nat.
Proof.
  induction l as [|x l IH]; simpl; [done|].
  destruct (decide_rel elem_of x l); simpl; lia.
Qed.

(** X1. Whatever [add_default_labels] is, [labels] keeps every explicit
    label and contains nothing but explicit and default labels; the default
    labels are all present when merging is on. *)
Theorem labels_keeps_explicit_adds_only_defaults cls self w D :
  run (default_labels_of cls) (self, w) = (Return D, (self, w)) →
  ∃ l, run (labels cls) (self, w) = (Return l, (self, w))
       ∧ (∀ x, x ∈ _labels self → x ∈ l)
       ∧ (∀ x, x ∈ l → x ∈ _labels self ∨ x ∈ D)
       ∧ (add_default_labels self = true → ∀ x, x ∈ D → x ∈ l).
Proof.
  intros HD. destruct (add_default_labels self) eqn:Hadd.
  - eexists. split; [by apply labels_merged|]. split; [|split].
    + intros x Hx. apply set_to_list_union_elem. auto.
    + intros x Hx. by apply set_to_list_union_elem in Hx.
    + intros _ x Hx. apply set_to_list_union_elem. auto.
  - eexists. split; [by apply labels_plain|].
    split; [done|]. split; [auto|discriminate].
Qed.

(** X2. With merging on, [labels] is a rearrangement of the explicit labels
    followed by the default labels with repetitions removed, so it is never
    longer than the two lists together. *)
Theorem labels_merged_permutation cls self w D :
  add_default_labels self = true →
  run (default_labels_of cls) (self, w) = (Return D, (self, w)) →
  ∃ l, run (labels cls) (self, w) = (Return l, (self, w))
       ∧ l ≡ₚ remove_dups (_labels self ++ D)
       ∧ (length l ≤ length (_labels self) + length D)%nat.
Proof.
  intros Hadd HD. eexists. split; [by apply labels_merged|].
  assert (set_to_list (list_to_set (_labels self) ∪ list_to_set D)
          ≡ₚ remove_dups (_labels self ++ D)) as Hperm.
  { apply NoDup_Permutation.
    - apply set_to_list_NoDup.
    - apply NoDup_remove_dups.
    - intros x.
      rewrite set_to_list_union_elem, elem_of_remove_dups, elem_of_app. done. }
  split; [done|]. rewrite Hperm, <- length_app.
  apply remove_dups_length_le.
Qed.

(** X3. A backend whose class keeps the base [default_labels] has the
    members of its explicit labels as labels whether merging is on or off;
    when the explicit labels are free of repetitions, [labels] is a
    rearrangement of them. *)
Theorem labels_without_defaults cls self w :
  own_default_labels cls = None →
  ∃ l, run (labels cls) (self, w) = (Return l, (self, w))
       ∧ (∀ x, x ∈ l ↔ x ∈ _labels self)
       ∧ (NoDup (_labels self) → l ≡ₚ _labels self).
Proof.
  intros Hown.
  assert (run (default_labels_of cls) (self, w) = (Return [], (self, w)))
    as HD by (unfold default_labels_of; by rewrite Hown).
  destruct (add_default_labels self) eqn:Hadd.
  - eexists. split; [by apply labels_merged|].
    assert (∀ x, x ∈ set_to_list (list_to_set (_labels self) ∪ list_to_set [])
                 ↔ x ∈ _labels self) as Hmem.
    { intros x. rewrite set_to_list_union_elem, elem_of_nil. tauto. }
    split; [done|]. intros Hnodup.
    apply NoDup_Permutation; [apply set_to_list_NoDup|done|done].
  - eexists. split; [by apply labels_plain|]. done.
Qed.

(** X4. With merging on, only the members count: two backends whose
    explicit labels have the same members, and whose default labels have
    the same members, get the same labels up to order, however the lists
    were ordered or repeated. *)
Theorem labels_merged_members_only cls cls' self self' w w' D D' :
  add_default_labels self = true → add_default_labels self' = true →
  run (default_labels_of cls) (self, w) = (Return D, (self, w)) →
  run (default_labels_of cls') (self', w') = (Return D', (self', w')) →
  (∀ x, x ∈ _labels self ↔ x ∈ _labels self') →
  (∀ x, x ∈ D ↔ x ∈ D') →
  ∃ l l', run (labels cls) (self, w) = (Return l, (self, w))
          ∧ run (labels cls') (self', w') = (Return l', (self', w'))
          ∧ l ≡ₚ l'.
Proof.
  intros Hadd Hadd' HD HD' HL HDD. do 2 eexists.
  split; [by apply labels_merged|]. split; [by apply labels_merged|].
  apply NoDup_Permutation; try apply set_to_list_NoDup.
  intros x. rewrite !set_to_list_union_elem, HL, HDD. done.
Qed.

(** ** Construction *)

(** X5. For a class that keeps the base constructor, calling the class
    returns an instance, with the world as it was, exactly when the class
    defines all of [add_flow], [__contains__] and [build]. *)
Theorem instantiate_succeeds_iff_concrete cls kw w :
  own_init cls = None →
  (is_Some (own_add_flow cls) ∧ is_Some (own_contains cls)
   ∧ is_Some (own_build cls))
  ↔ ∃ built, run (instantiate cls kw) w = (Return built, w).
Proof.
  intros Hinit.
  pose proof (abstractmethods_spec cls) as (Hadd & Hcont & Hbuild).
  destruct (__abstractmethods__ cls) as [|m ms] eqn:Habs.
  - rewrite elem_of_nil in Hadd, Hcont, Hbuild. split.
    + intros _. rewrite (instantiate_concrete _ _ _ Habs Hinit), init_returns.
      by eexists.
    + intros _. rewrite <- !not_eq_None_Some. tauto.
  - split.
    + intros (Ha & Hc & Hb). exfalso.
      apply not_eq_None_Some in Ha, Hc, Hb.
      assert (m ∈ m :: ms) as Hm by apply list_elem_of_here.
      rewrite <- Habs in Hm. unfold __abstractmethods__ in Hm.
      destruct (own_add_flow cls), (own_contains cls), (own_build cls);
        try done. by apply elem_of_nil in Hm.
    + intros [built Hrun]. unfold run, instantiate in Hrun.
      rewrite Habs in Hrun. discriminate.
Qed.

(** X6. An instance built by the base constructor has no [_flows]
    attribute, so running the health checks on it right after construction
    returns normally without calling the checker, whatever the checker
    would have said. *)
Theorem fresh_instance_skips_healthchecks cls kw w built w' :
  own_init cls = None →
  run (instantiate cls kw) w = (Return built, w') →
  _flows built = None
  ∧ run (run_basic_healthchecks result_check) (built, w')
    = (Return tt, (built, w')).
Proof.
  intros Hinit Hrun.
  assert (_flows built = None) as Hflows.
  { destruct (__abstractmethods__ cls) as [|m ms] eqn:Habs.
    - rewrite (instantiate_concrete _ _ _ Habs Hinit), init_returns in Hrun.
      by simplify_eq.
    - unfold run, instantiate in Hrun. rewrite Habs in Hrun. discriminate. }
  split; [done|]. by apply healthchecks_without_registry.
Qed.


(** ** Health checks *)

(** X8. The outcome of the health checks and what they do to the external
    state depend on the registry and on the external state only: the other
    attributes of the instance and the configuration play no part. *)
Theorem healthcheck_depends_on_registry_only self self' w w' :
  _flows self = _flows self' → ext w = ext w' →
  (run (run_basic_healthchecks result_check) (self, w)).1
  = (run (run_basic_healthchecks result_check) (self', w')).1
  ∧ ext (run (run_basic_healthchecks result_check) (self, w)).2.2
    = ext (run (run_basic_healthchecks result_check) (self', w')).2.2.
Proof.
  intros Hflows Hext. destruct (_flows self) as [flows|] eqn:Hself;
    symmetry in Hflows.
  - rewrite (healthchecks_with_registry _ _ _ _ Hself),
      (healthchecks_with_registry _ _ _ _ Hflows). simpl. by rewrite Hext.
  - rewrite (healthchecks_without_registry _ _ _ Hself),
      (healthchecks_without_registry _ _ _ Hflows). done.
Qed.

(** X9. Nothing is remembered between two runs of the health checks.  Run
    twice in a row on an instance with a registry, a failure of the first
    run ends the sequence after one call of the checker; otherwise the
    checker is called a second time on the same flows and its second
    outcome is the outcome of the sequence. *)
Theorem healthcheck_twice self w flows :
  _flows self = Some flows →
  (∀ exc e1,
     result_check (dict_values flows) (ext w) = (Raise exc, e1) →
     run (bind (run_basic_healthchecks result_check)
            (λ _, run_basic_healthchecks result_check)) (self, w)
     = (Raise exc, (self, {| config := config w;
                             checked := checked w ++ [dict_values flows];
                             ext := e1 |})))
  ∧ (∀ u e1 r2 e2,
       result_check (dict_values flows) (ext w) = (Return u, e1) →
       result_check (dict_values flows) e1 = (r2, e2) →
       run (bind (run_basic_healthchecks result_check)
              (λ _, run_basic_healthchecks result_check)) (self, w)
       = (r2, (self, {| config := config w;
                        checked := checked w
                                   ++ [dict_values flows; dict_values flows];
                        ext := e2 |}))).
Proof.
  intros Hflows. split.
  - intros exc e1 Hfirst. apply bind_raise.
    pose proof (healthchecks_with_registry result_check _ w _ Hflows) as Hrun.
    unfold run in Hrun. rewrite Hrun, Hfirst. done.
  - intros u e1 r2 e2 Hfirst Hsecond. unfold run, bind.
    pose proof (healthchecks_with_registry result_check _ w _ Hflows) as Hrun.
    unfold run in Hrun. rewrite Hrun, Hfirst. simpl.
    pose proof (healthchecks_with_registry result_check self
                  {| config := config w;
                     checked := checked w ++ [dict_values flows];
                     ext := e1 |} _ Hflows) as Hrun2.
    unfold run in Hrun2. rewrite Hrun2. simpl. rewrite Hsecond. simpl.
    by rewrite <- app_assoc.
Qed.

(** ** Identity *)

Lemma append_closing_inj (s1 s2 : string) : s1 ++ ">" = s2 ++ ">" → s1 = s2.
Proof.
  revert s2. induction s1 as [|a s1 IH]; intros [|b s2] Heq; simpl in Heq.
  - done.
  - injection Heq as _ Heq. by destruct s2.
  - injection Heq as _ Heq. by destruct s1.
  - injection Heq as -> Heq. f_equal. by apply IH.
Qed.

(** X10. [__repr__] tells classes apart by their [__name__] and by nothing
    else: two backends have the same representation exactly when their
    classes bear the same identifier, whatever their attributes and
    whatever [name] the class declares. *)
Theorem repr_identifies_class_name cls cls' self self' w w' :
  (run (__repr__ cls) (self, w)).1 = (run (__repr__ cls') (self', w')).1
  ↔ __name__ cls = __name__ cls'.
Proof.
  unfold __repr__. step_method. split.
  - intros Heq. injection Heq as Heq. by apply append_closing_inj.
  - by intros ->.
Qed.

End MoreProperties.

(** * The further properties on the concrete backend *)

Lemma labels_keeps_explicit_adds_only_defaults_witness :
  ∃ l, run (labels DemoStorage) (demo_self ["a"; "a"] false None, demo_world true)
       = (Return l, (demo_self ["a"; "a"] false None, demo_world true))
       ∧ (∀ x, x ∈ ["a"; "a"] → x ∈ l)
       ∧ (∀ x, x ∈ l → x ∈ ["a"; "a"] ∨ x ∈ ["b"; "c"]).
Proof.
  destruct (labels_keeps_explicit_adds_only_defaults DemoStorage
              (demo_self ["a"; "a"] false None) (demo_world true) ["b"; "c"]
              eq_refl) as (l & Hrun & Hkeep & Honly & _).
  exists l. split; [exact Hrun|]. split; [exact Hkeep|exact Honly].
Defined.

Lemma labels_merged_permutation_witness :
  ∃ l, run (labels DemoStorage) (demo_self ["a"; "b"; "a"] true None, demo_world false)
       = (Return l, (demo_self ["a"; "b"; "a"] true None, demo_world false))
       ∧ l ≡ₚ remove_dups (["a"; "b"; "a"] ++ ["b"; "c"])
       ∧ (length l ≤ 3 + 2)%nat.
Proof.
  exact (labels_merged_permutation DemoStorage
           (demo_self ["a"; "b"; "a"] true None) (demo_world false) ["b"; "c"]
           eq_refl eq_refl).
Defined.

Lemma labels_without_defaults_witness :
  ∃ l, run (labels HomonymStorage)
         (demo_self ["x"; "y"] true None, demo_world false)
       = (Return l, (demo_self ["x"; "y"] true None, demo_world false))
       ∧ (∀ x, x ∈ l ↔ x ∈ ["x"; "y"])
       ∧ l ≡ₚ ["x"; "y"].
Proof.
  destruct (labels_without_defaults HomonymStorage
              (demo_self ["x"; "y"] true None) (demo_world false) eq_refl)
    as (l & Hrun & Hmem & Hperm).
  exists l. split; [exact Hrun|]. split; [exact Hmem|].
  apply Hperm. simpl. apply NoDup_cons. split; [|apply NoDup_singleton].
  rewrite list_elem_of_singleton. discriminate.
Defined.

Lemma labels_merged_members_only_witness :
  ∃ l l',
    run (labels DemoStorage) (demo_self ["a"; "b"; "a"] true None, demo_world true)
    = (Return l, (demo_self ["a"; "b"; "a"] true None, demo_world true))
    ∧ run (labels DemoStorage) (demo_self ["b"; "a"] true None, demo_world false)
      = (Return l', (demo_self ["b"; "a"] true None, demo_world false))
    ∧ l ≡ₚ l'.
Proof.
  apply (labels_merged_members_only DemoStorage DemoStorage
           (demo_self ["a"; "b"; "a"] true None) (demo_self ["b"; "a"] true None)
           (demo_world true) (demo_world false) ["b"; "c"] ["b"; "c"]
           eq_refl eq_refl eq_refl eq_refl).
  - intros x. simpl. rewrite !elem_of_cons, !elem_of_nil. tauto.
  - done.
Defined.

Lemma instantiate_succeeds_iff_concrete_witness :
  ∃ built : demo_attrs,
    run (instantiate DemoStorage no_kwargs) (demo_world true)
    = (Return built, demo_world true).
Proof.
  apply (instantiate_succeeds_iff_concrete DemoStorage no_kwargs
           (demo_world true) eq_refl).
  repeat split; by eexists.
Defined.

Lemma fresh_instance_skips_healthchecks_witness :
  run (run_basic_healthchecks demo_result_check)
    (demo_self [] true None, demo_world true)
  = (Return tt, (demo_self [] true None, demo_world true)).
Proof.
  apply (fresh_instance_skips_healthchecks demo_result_check DemoStorage
           no_kwargs (demo_world true) (demo_self [] true None)
           (demo_world true) eq_refl eq_refl).
Defined.


Lemma healthcheck_depends_on_registry_only_witness :
  (run (run_basic_healthchecks demo_result_check)
     (demo_self ["a"] true (Some [("report", bad_flow)]), demo_world true)).1
  = (run (run_basic_healthchecks demo_result_check)
       (demo_self [] false (Some [("report", bad_flow)]), demo_world false)).1.
Proof.
  apply (healthcheck_depends_on_registry_only demo_result_check
           (demo_self ["a"] true (Some [("report", bad_flow)]))
           (demo_self [] false (Some [("report", bad_flow)]))
           (demo_world true) (demo_world false) eq_refl eq_refl).
Defined.

Lemma healthcheck_twice_witness :
  run (bind (run_basic_healthchecks demo_result_check)
         (λ _, run_basic_healthchecks demo_result_check))
    (demo_self [] true (Some [("report", bad_flow)]), demo_world true)
  = (Raise (OtherError "ValueError" "report"),
     (demo_self [] true (Some [("report", bad_flow)]),
      {| config := {| flows_defaults_storage_add_default_labels := true |};
         checked := [[bad_flow]];
         ext := [] |}))
  ∧ run (bind (run_basic_healthchecks demo_result_check)
           (λ _, run_basic_healthchecks demo_result_check))
      (demo_self [] true (Some [("etl", good_flow)]), demo_world true)
    = (Return tt,
       (demo_self [] true (Some [("etl", good_flow)]),
        {| config := {| flows_defaults_storage_add_default_labels := true |};
           checked := [[good_flow]; [good_flow]];
           ext := ["Result check: OK"; "Result check: OK"] |})).
Proof.
  split.
  - exact (proj1 (healthcheck_twice demo_result_check
             (demo_self [] true (Some [("report", bad_flow)])) (demo_world true)
             _ eq_refl) _ _ eq_refl).
  - exact (proj2 (healthcheck_twice demo_result_check
             (demo_self [] true (Some [("etl", good_flow)])) (demo_world true)
             _ eq_refl) _ _ _ _ eq_refl eq_refl).
Defined.
